(** * The annotation API views of h ([h/views/api/annotations.py]) and the
      events they publish ([h/events.py])

    The views are short, straight-line Python functions whose whole
    behaviour is the sequence of calls they make to their collaborators
    (schema validators, the annotation write service, the search library,
    the JSON presentation service, the search index, the request's
    after-commit event queue) and the dict they build from the replies.

    The embedding therefore is a small exception-and-state monad that also
    records every collaborator call: the collaborators are one handler
    [svc], abstract in every theorem, the Python dicts are [gmap string],
    and a raised exception keeps the backend as the collaborators left it,
    as in Python. *)

From Stdlib Require Import ZArith String List.
From stdpp Require Import base option list strings gmap fin_maps.
Import ListNotations.
Local Open Scope string_scope.
Local Open Scope Z_scope.
Local Open Scope list_scope.

(** ** Python values *)

(** The JSON-like values that travel through the views: query parameters
    after validation, settings, presented annotations, response bodies. *)
#[warnings="-register-all"] Inductive value : Type :=
| VNone
| VBool (b : bool)
| VInt (n : Z)
| VStr (s : string)
| VList (l : list value).

(** Python truth value testing, as used by [if x:] and [not x]. *)
Definition truthy (v : value) : bool :=
  match v with
  | VNone => false
  | VBool b => b
  | VInt n => negb (n =? 0)
  | VStr s => negb (String.eqb s "")
  | VList l => match l with [] => false | _ :: _ => true end
  end.

(** [d.pop(key, default)]: the value under [key] (or [default] when the
    key is absent) together with the dict without [key].  The validated
    query parameters are a mapping from names to values ("parameter set"
    in the specification; [validate_query_params] is not among the
    sources). *)
Definition pop {V} (key : string) (default : V) (d : gmap string V)
  : V * gmap string V :=
  (match d !! key with Some v => v | None => default end, base.delete key d).

(** Exceptions.  [HTTPNotFound] is the only one the views raise on their
    own; [KeyError] is what a dict subscript raises; collaborators may
    raise anything. *)
Inductive Exn : Type :=
| HTTPNotFound
| KeyError (key : string)
| Error (name : string).

Inductive Result (A : Type) : Type :=
| Return (a : A)
| Raise (e : Exn).
Arguments Return {A} a.
Arguments Raise {A} e.

Definition returned {A} (r : Result A) : bool :=
  match r with Return _ => true | Raise _ => false end.

(** ** Data model *)

(** What the views see of an annotation (owned by the persistence layer). *)
Record Annotation : Type := {
  id : string;
  target_uri : string;
  groupid : string;
  userid : string
}.

(** The parts of the Pyramid request the views read. *)
Record Request : Type := {
  params : list (string * string);      (* request.params, raw *)
  json_body : string;                   (* the raw payload *)
  user : option string;                 (* request.user *)
  settings : gmap string value          (* request.registry.settings *)
}.

(** The traversal context of the per-annotation routes. *)
Record Context : Type := { annotation : Annotation }.

(** [h.search.core.SearchResult], as far as [search] reads it. *)
Record SearchResult : Type := {
  total : Z;
  annotation_ids : list string;
  reply_ids : list string
}.

(** ** [h/events.py] *)
Module events.

(** [class AnnotationEvent]: the constructor stores its three arguments.
    [action] carries the type hint
    [AnnotationAction = Literal["create", "update", "delete"]], which
    Python does not enforce at run time: the field is a string. *)
Record AnnotationEvent : Type := {
  request : Request;
  annotation_id : string;
  action : string
}.

Definition AnnotationAction : list string := ["create"; "update"; "delete"].

(** [class ModeratedAnnotationEvent]. *)
Record ModeratedAnnotationEvent : Type := {
  mod_request : Request;
  moderation_log_id : Z
}.

End events.
Import events.

(** ** Collaborators *)

(** The calls the views make to code outside the module, named as in the
    source. *)
Inductive Invocation : Type :=
| validate_query_params (params : list (string * string))
    (* validate_query_params(SearchParamsSchema(), request.params) *)
| json_payload (request : Request)
| CreateAnnotationSchema_validate (request : Request) (payload : value)
| UpdateAnnotationSchema_validate (request : Request)
    (target_uri groupid : string) (payload : value)
| Search_run (request : Request) (separate_replies : value)
    (params : gmap string value)
    (* search_lib.Search(request, separate_replies=...).run(params) *)
| present_for_user (annotation : Annotation) (user : option string)
| present_all_for_user (annotation_ids : list string) (user : option string)
| create_annotation (data : gmap string value)
| update_annotation (annotation : Annotation) (data : gmap string value)
| annotation_delete_service_delete (annotation : Annotation)
| add_annotation (annotation : Annotation) (refresh : bool)
| AnnotationJSONLDPresenter_asdict (annotation : Annotation).

(** What each call hands back when it returns. *)
Definition reply (i : Invocation) : Type :=
  match i with
  | validate_query_params _ => gmap string value
  | json_payload _ => value
  | CreateAnnotationSchema_validate _ _ => gmap string value
  | UpdateAnnotationSchema_validate _ _ _ _ => gmap string value
  | Search_run _ _ _ => SearchResult
  | present_for_user _ _ => value
  | present_all_for_user _ _ => list value
  | create_annotation _ => Annotation
  | update_annotation _ _ => Annotation
  | annotation_delete_service_delete _ => unit
  | add_annotation _ _ => unit
  | AnnotationJSONLDPresenter_asdict _ => gmap string value
  end.

(** One entry of the history of a request: a collaborator call, with
    whether it returned or raised, or an event handed to
    [request.notify_after_commit]. *)
Inductive Step : Type :=
| Invoked (i : Invocation) (ok : bool)
| Notified (event : AnnotationEvent).

(** The events put on the after-commit queue along a history. *)
Definition scheduled (t : list Step) : list AnnotationEvent :=
  omap (fun s => match s with Notified ev => Some ev | Invoked _ _ => None end) t.

(** The collaborator calls made along a history. *)
Definition invocations (t : list Step) : list Invocation :=
  omap (fun s => match s with Invoked i _ => Some i | Notified _ => None end) t.

(** The identifier sequences handed to the bulk presentation call
    [present_all_for_user] along a history, one entry per call. *)
Definition presented_in_bulk (t : list Step) : list (list string) :=
  omap (fun i => match i with
                 | present_all_for_user ids _ => Some ids
                 | _ => None
                 end) (invocations t).

(** The annotations handed one at a time to [present_for_user]. *)
Definition presented_singly (t : list Step) : list Annotation :=
  omap (fun i => match i with
                 | present_for_user a _ => Some a
                 | _ => None
                 end) (invocations t).

(** [request.response], which [read_jsonld] writes to. *)
Record Response : Type := {
  content_type : string;
  content_type_params : gmap string string
}.

Section Monad.

(** The state of everything the collaborators own: annotation store,
    search index, and whatever else they keep. *)
Context {Backend : Type}.

Record World : Type := {
  backend : Backend;
  response : Response
}.

(** What running a piece of a view gives: its result, the world it
    leaves, and the steps it took. *)
Record Outcome (A : Type) : Type := {
  result : Result A;
  final : World;
  trace : list Step
}.
Arguments result {A} o.
Arguments final {A} o.
Arguments trace {A} o.

Definition M (A : Type) : Type := World -> Outcome A.

Definition ret {A} (a : A) : M A :=
  fun w => {| result := Return a; final := w; trace := [] |}.

Definition raise {A} (e : Exn) : M A :=
  fun w => {| result := Raise e; final := w; trace := [] |}.

(** Sequencing: an exception ends the run, keeping the world and the
    steps so far. *)
Definition bind {A B} (m : M A) (k : A -> M B) : M B :=
  fun w =>
    let o := m w in
    match result o with
    | Return a =>
        let o' := k a (final o) in
        {| result := result o'; final := final o';
           trace := trace o ++ trace o' |}
    | Raise e => {| result := Raise e; final := final o; trace := trace o |}
    end.

(** The collaborators: each call maps the backend to a result and the
    backend it leaves.  [request.find_service] resolves to these. *)
Definition Services : Type :=
  forall i : Invocation, Backend -> Result (reply i) * Backend.

Definition invoke (svc : Services) (i : Invocation) : M (reply i) :=
  fun w =>
    let '(r, b) := svc i (backend w) in
    {| result := r;
       final := {| backend := b; response := response w |};
       trace := [Invoked i (returned r)] |}.

(** Modelled from the spec: [request.notify_after_commit] is not among
    the sources; the event sink "schedules delivery" by putting the event
    on the list of pending events of the request. *)
Definition notify_after_commit (event : AnnotationEvent) : M unit :=
  fun w => {| result := Return tt; final := w; trace := [Notified event] |}.

(** [d[key]] on a dict. *)
Definition getitem (d : gmap string value) (key : string) : M value :=
  match d !! key with
  | Some v => ret v
  | None => raise (KeyError key)
  end.

Definition set_response (r : Response) : M unit :=
  fun w => {| result := Return tt;
              final := {| backend := backend w; response := r |};
              trace := [] |}.

End Monad.

Arguments World : clear implicits.
Arguments Services : clear implicits.
Arguments M : clear implicits.
Arguments Outcome : clear implicits.
Arguments result {Backend A} o.
Arguments final {Backend A} o.
Arguments trace {Backend A} o.

Declare Scope view_scope.
Delimit Scope view_scope with view.
Notation "x <- m ;; k" := (bind m (fun x => k))
  (at level 100, m at next level, right associativity) : view_scope.
Notation "m ;; k" := (bind m (fun _ => k))
  (at level 100, right associativity) : view_scope.

(** ** [h/views/api/annotations.py] *)
Module annotations.
Section Views.

Context {Backend : Type}.
(** The registered collaborators, and [AnnotationJSONLDPresenter.CONTEXT_URL]
    (a constant of [h.presenters]). *)
Variable svc : Services Backend.
Variable CONTEXT_URL : string.

Local Open Scope view_scope.

(** Publish an event to the annotations queue for this annotation action. *)
Definition _publish_annotation_event
    (request : Request) (annotation : Annotation) (action : string)
  : M Backend unit :=
  let event :=
    {| events.request := request;
       events.annotation_id := id annotation;
       events.action := action |} in
  notify_after_commit event.

(** Search the database for annotations matching with the given query. *)
Definition search (request : Request) : M Backend (gmap string value) :=
  params <- invoke svc (validate_query_params (params request)) ;;
  let '(separate_replies, params) :=
    pop "_separate_replies" (VBool false) params in
  result <- invoke svc (Search_run request separate_replies params) ;;
  rows <- invoke svc
            (present_all_for_user (annotation_ids result) (user request)) ;;
  let out : gmap string value :=
    <["rows" := VList rows]> (<["total" := VInt (total result)]> ∅) in
  if truthy separate_replies then
    replies <- invoke svc
                 (present_all_for_user (reply_ids result) (user request)) ;;
    ret (<["replies" := VList replies]> out)
  else
    ret out.

(** Create an annotation from the POST payload. *)
Definition create (request : Request) : M Backend value :=
  payload <- invoke svc (json_payload request) ;;
  appstruct <- invoke svc (CreateAnnotationSchema_validate request payload) ;;
  annotation <- invoke svc (create_annotation appstruct) ;;
  _publish_annotation_event request annotation "create" ;;
  invoke svc (present_for_user annotation (user request)).

(** Return the annotation (simply how it was stored in the database). *)
Definition read (context : Context) (request : Request) : M Backend value :=
  invoke svc (present_for_user (annotation context) (user request)).

Definition read_jsonld (context : Context) (request : Request)
  : M Backend (gmap string value) :=
  set_response
    {| content_type := "application/ld+json";
       content_type_params :=
         <["profile" := CONTEXT_URL]> (<["charset" := "UTF-8"]> ∅) |} ;;
  invoke svc (AnnotationJSONLDPresenter_asdict (annotation context)).

(** Update the specified annotation with data from the PATCH payload. *)
Definition update (context : Context) (request : Request) : M Backend value :=
  payload <- invoke svc (json_payload request) ;;
  appstruct <- invoke svc
                 (UpdateAnnotationSchema_validate request
                    (target_uri (annotation context))
                    (groupid (annotation context)) payload) ;;
  annotation <- invoke svc
                  (update_annotation (annotation context) appstruct) ;;
  _publish_annotation_event request annotation "update" ;;
  invoke svc (present_for_user annotation (user request)).

(** Delete the specified annotation. *)
Definition delete (context : Context) (request : Request)
  : M Backend (gmap string value) :=
  invoke svc (annotation_delete_service_delete (annotation context)) ;;
  ret (<["deleted" := VBool true]>
         (<["id" := VStr (id (annotation context))]> ∅)).

(** Reindex one particular annotation. *)
Definition reindex (context : Context) (request : Request)
  : M Backend (gmap string value) :=
  dev <- getitem (settings request) "h.dev" ;;
  if negb (truthy dev) then
    (* Don't allow reindexing in production *)
    raise HTTPNotFound
  else
    invoke svc (add_annotation (annotation context) true) ;;
    ret (<["indexed" := VBool true]>
           (<["id" := VStr (id (annotation context))]> ∅)).

(** The views the [@api_config] decorators register. *)
Inductive View : Type :=
| api_search | api_create | api_read | api_read_jsonld
| api_update | api_delete | api_reindex.

(** The steps a view takes on a request. *)
Definition steps (v : View) (context : Context) (request : Request)
    (w : World Backend) : list Step :=
  match v with
  | api_search => trace (search request w)
  | api_create => trace (create request w)
  | api_read => trace (read context request w)
  | api_read_jsonld => trace (read_jsonld context request w)
  | api_update => trace (update context request w)
  | api_delete => trace (delete context request w)
  | api_reindex => trace (reindex context request w)
  end.

End Views.
End annotations.

(** ** Concrete collaborators

    A small in-memory backend on which the views can be run: the scenarios
    of the specification, and collaborators that fail. *)

Record Store : Type := {
  stored : list Annotation;       (* the annotation table *)
  indexed : list string           (* ids present in the search index *)
}.

Definition parse_param (kv : string * string) : string * value :=
  (kv.1,
   if String.eqb kv.1 "_separate_replies"
   then VBool (String.eqb kv.2 "true")
   else VStr kv.2).

Definition ann1 : Annotation :=
  {| id := "ann1"; target_uri := "http://x"; groupid := "__world__";
     userid := "acct:alice@example.com" |}.

(** Collaborators that always return: search finds total=2, the primary
    annotation [a1] and, when replies are separated, the reply [r1];
    creation returns the annotation [ann1]. *)
Definition memory_services : Services Store :=
  fun i =>
    match i return Store -> Result (reply i) * Store with
    | validate_query_params raw =>
        fun b => (Return (list_to_map (parse_param <$> raw)), b)
    | json_payload request =>
        fun b => (Return (VStr (json_body request)), b)
    | CreateAnnotationSchema_validate _ payload =>
        fun b => (Return (<["text" := payload]> ∅), b)
    | UpdateAnnotationSchema_validate _ _ _ payload =>
        fun b => (Return (<["text" := payload]> ∅), b)
    | Search_run _ separate_replies _ =>
        fun b =>
          (Return {| total := 2; annotation_ids := ["a1"];
                     reply_ids := if truthy separate_replies
                                  then ["r1"] else [] |}, b)
    | present_for_user a _ => fun b => (Return (VStr (id a)), b)
    | present_all_for_user ids _ => fun b => (Return (VStr <$> ids), b)
    | create_annotation _ =>
        fun b => (Return ann1,
                  {| stored := ann1 :: stored b; indexed := indexed b |})
    | update_annotation a _ => fun b => (Return a, b)
    | annotation_delete_service_delete a =>
        fun b =>
          (Return tt,
           {| stored := filter (fun x => negb (String.eqb (id x) (id a))) (stored b);
              indexed := filter (fun x => negb (String.eqb x (id a))) (indexed b) |})
    | add_annotation a _ =>
        fun b => (Return tt,
                  {| stored := stored b; indexed := id a :: indexed b |})
    | AnnotationJSONLDPresenter_asdict a =>
        fun b => (Return (<["id" := VStr (id a)]> ∅), b)
    end.

(** The same collaborators with the annotation store failing on writes. *)
Definition storage_down {Backend} (svc : Services Backend) : Services Backend :=
  fun i =>
    match i return Backend -> Result (reply i) * Backend with
    | create_annotation _ => fun b => (Raise (Error "OperationalError"), b)
    | update_annotation _ _ => fun b => (Raise (Error "OperationalError"), b)
    | i' => svc i'
    end.

(** The same collaborators with the search index unreachable. *)
Definition search_index_down {Backend} (svc : Services Backend)
  : Services Backend :=
  fun i =>
    match i return Backend -> Result (reply i) * Backend with
    | add_annotation _ _ => fun b => (Raise (Error "ConnectionError"), b)
    | i' => svc i'
    end.

Definition empty_world : World Store :=
  {| backend := {| stored := []; indexed := [] |};
     response := {| content_type := "application/json";
                    content_type_params := ∅ |} |}.

Definition request_with (query : list (string * string)) (body : string)
    (dev : option value) : Request :=
  {| params := query; json_body := body;
     user := Some "acct:alice@example.com";
     settings := match dev with
                 | Some v => <["h.dev" := v]> ∅
                 | None => ∅
                 end |}.

Definition context_of (a : Annotation) : Context := {| annotation := a |}.

(** The search scenarios of the specification: the query
    [{q: "foo", _separate_replies: true}] against a backend with total=2,
    the primary id [a1] and the reply id [r1]; and the same query without
    the flag. *)
Definition query_separate : Request :=
  request_with [("q", "foo"); ("_separate_replies", "true")] "" None.

Definition query_plain : Request := request_with [("q", "foo")] "" None.

Definition validated_separate : gmap string value :=
  <["q" := VStr "foo"]> (<["_separate_replies" := VBool true]> ∅).

Definition validated_plain : gmap string value := <["q" := VStr "foo"]> ∅.

Definition found_separate : SearchResult :=
  {| total := 2; annotation_ids := ["a1"]; reply_ids := ["r1"] |}.

Definition found_plain : SearchResult :=
  {| total := 2; annotation_ids := ["a1"]; reply_ids := [] |}.

Definition response_separate : gmap string value :=
  <["replies" := VList [VStr "r1"]]>
    (<["rows" := VList [VStr "a1"]]> (<["total" := VInt 2]> ∅)).

Definition response_plain : gmap string value :=
  <["rows" := VList [VStr "a1"]]> (<["total" := VInt 2]> ∅).



(** A request in dev mode. *)
Definition dev_request : Request :=
  request_with [] "" (Some (VBool true)).

(** ** The module as a whole *)

(** The calls that change what the backend stores: the annotation write
    service, the deletion service and the search index. *)
Definition writes (i : Invocation) : bool :=
  match i with
  | create_annotation _ | update_annotation _ _
  | annotation_delete_service_delete _ | add_annotation _ _ => true
  | _ => false
  end.

(** Every collaborator call of a history returned. *)
Definition all_returned (t : list Step) : bool :=
  forallb (fun s => match s with Invoked _ ok => ok | Notified _ => true end) t.

(** A run that returns saw all of its calls return; in a run that raises
    only the last step can be a call that raised. *)
Definition failure_is_last {Backend A} (o : Outcome Backend A) : bool :=
  match result o with
  | Return _ => all_returned (trace o)
  | Raise _ => all_returned (removelast (trace o))
  end.

(** A run without the value it returns. *)
Definition forget {Backend A} (o : Outcome Backend A) : Outcome Backend unit :=
  {| result := match result o with
               | Return _ => Return tt
               | Raise e => Raise e
               end;
     final := final o;
     trace := trace o |}.

(** Serving a request with one of the registered views. *)
Definition serve {Backend} (svc : Services Backend) (CONTEXT_URL : string)
    (v : annotations.View) (context : Context) (request : Request)
    (w : World Backend) : Outcome Backend unit :=
  match v with
  | annotations.api_search => forget (annotations.search svc request w)
  | annotations.api_create => forget (annotations.create svc request w)
  | annotations.api_read => forget (annotations.read svc context request w)
  | annotations.api_read_jsonld =>
      forget (annotations.read_jsonld svc CONTEXT_URL context request w)
  | annotations.api_update => forget (annotations.update svc context request w)
  | annotations.api_delete => forget (annotations.delete svc context request w)
  | annotations.api_reindex => forget (annotations.reindex svc context request w)
  end.

(** The same collaborators with schemas that reject every payload. *)
Definition rejecting_schemas {Backend} (svc : Services Backend)
  : Services Backend :=
  fun i =>
    match i return Backend -> Result (reply i) * Backend with
    | CreateAnnotationSchema_validate _ _ =>
        fun b => (Raise (Error "ValidationError"), b)
    | UpdateAnnotationSchema_validate _ _ _ _ =>
        fun b => (Raise (Error "ValidationError"), b)
    | validate_query_params _ => fun b => (Raise (Error "ValidationError"), b)
    | i' => svc i'
    end.

(** The same collaborators with the presentation service failing. *)
Definition presenter_down {Backend} (svc : Services Backend)
  : Services Backend :=
  fun i =>
    match i return Backend -> Result (reply i) * Backend with
    | present_for_user _ _ => fun b => (Raise (Error "PresenterError"), b)
    | present_all_for_user _ _ => fun b => (Raise (Error "PresenterError"), b)
    | i' => svc i'
    end.

(** The same collaborators with the search library failing. *)
Definition search_down {Backend} (svc : Services Backend) : Services Backend :=
  fun i =>
    match i return Backend -> Result (reply i) * Backend with
    | Search_run _ _ _ => fun b => (Raise (Error "ConnectionError"), b)
    | i' => svc i'
    end.

(** The same collaborators with the deletion service failing. *)
Definition delete_down {Backend} (svc : Services Backend) : Services Backend :=
  fun i =>
    match i return Backend -> Result (reply i) * Backend with
    | annotation_delete_service_delete _ =>
        fun b => (Raise (Error "OperationalError"), b)
    | i' => svc i'
    end.

(** The same collaborators with a presenter that cannot present the
    reply [r1]. *)
Definition replies_unpresentable {Backend} (svc : Services Backend)
  : Services Backend :=
  fun i =>
    match i return Backend -> Result (reply i) * Backend with
    | present_all_for_user ids u =>
        fun b =>
          if existsb (String.eqb "r1") ids
          then (Raise (Error "PresenterError"), b)
          else svc (present_all_for_user ids u) b
    | i' => svc i'
    end.

(** A request whose settings have no [h.dev] entry. *)
Definition plain_request : Request := request_with [] "hi" None.

(** * Properties *)

(** ** The monad and the history projections *)

Section MonadFacts.

Context {Backend : Type}.
Implicit Types w : World Backend.

Lemma bind_Return {A B} (m : M Backend A) (k : A -> M Backend B) w a :
  result (m w) = Return a ->
  bind m k w =
    {| result := result (k a (final (m w)));
       final := final (k a (final (m w)));
       trace := trace (m w) ++ trace (k a (final (m w))) |}.
Proof. intros H. unfold bind. now rewrite H. Qed.

Lemma bind_Raise {A B} (m : M Backend A) (k : A -> M Backend B) w e :
  result (m w) = Raise e ->
  bind m k w =
    {| result := Raise e; final := final (m w); trace := trace (m w) |}.
Proof. intros H. unfold bind. now rewrite H. Qed.

Lemma invoke_eq (svc : Services Backend) i w r b :
  svc i (backend w) = (r, b) ->
  invoke svc i w =
    {| result := r;
       final := {| backend := b; response := response w |};
       trace := [Invoked i (returned r)] |}.
Proof. intros H. unfold invoke. now rewrite H. Qed.

Lemma scheduled_app t1 t2 : scheduled (t1 ++ t2) = scheduled t1 ++ scheduled t2.
Proof. apply omap_app. Qed.

Lemma invocations_app t1 t2 :
  invocations (t1 ++ t2) = invocations t1 ++ invocations t2.
Proof. apply omap_app. Qed.

End MonadFacts.

(** Run the next collaborator call of the goal on both of its outcomes. *)
Ltac next_call svc :=
  match goal with
  | |- context [svc ?i ?b] =>
      let r := fresh "r" in
      let b' := fresh "b" in
      let E := fresh "E" in
      destruct (svc i b) as [r b'] eqn:E; destruct r; cbn in *
  end.

Section ViewFacts.

Context {Backend : Type}.
Variable svc : Services Backend.
Variable CONTEXT_URL : string.
Implicit Types (w : World Backend) (request : Request) (context : Context).

Import annotations.

(** *** reindex *)

(** Outside dev mode the whole run of [reindex] is the raised exception. *)
Lemma reindex_not_dev context request w dev :
  settings request !! "h.dev" = Some dev ->
  truthy dev = false ->
  reindex svc context request w =
    {| result := Raise HTTPNotFound; final := w; trace := [] |}.
Proof.
  intros Hdev Hfalse. unfold reindex, bind, getitem.
  rewrite Hdev. cbn. now rewrite Hfalse.
Qed.

(** C10.  When the [h.dev] setting is false, [reindex] raises
    [HTTPNotFound] before it touches any collaborator: it makes no call at
    all (so [add_annotation] is never invoked) and leaves the world, the
    search index included, exactly as it found it. *)
Theorem reindex_outside_dev_mode_touches_nothing context request w dev :
  settings request !! "h.dev" = Some dev ->
  truthy dev = false ->
  result (reindex svc context request w) = Raise HTTPNotFound
  /\ trace (reindex svc context request w) = []
  /\ invocations (trace (reindex svc context request w)) = []
  /\ final (reindex svc context request w) = w.
Proof.
  intros Hdev Hfalse.
  rewrite (reindex_not_dev context request w dev Hdev Hfalse).
  repeat split.
Qed.

(** C4 (as amended).  [reindex] is gated on the [h.dev] setting: when it
    is false the call fails with [HTTPNotFound]; when it is true the call
    makes exactly one collaborator call, [add_annotation] for the
    annotation of the context with [refresh=True]; when that call returns,
    [reindex] returns [{"id": <annotation id>, "indexed": True}], and when
    it raises, the exception reaches the caller. *)
Theorem reindex_dev_mode_gate context request w dev :
  settings request !! "h.dev" = Some dev ->
  (truthy dev = false ->
     result (reindex svc context request w) = Raise HTTPNotFound)
  /\ (truthy dev = true ->
        invocations (trace (reindex svc context request w)) =
          [add_annotation (annotation context) true]
        /\ (forall b,
              svc (add_annotation (annotation context) true) (backend w) =
                (Return tt, b) ->
              result (reindex svc context request w) =
                Return (<["indexed" := VBool true]>
                          (<["id" := VStr (id (annotation context))]> ∅))
              /\ backend (final (reindex svc context request w)) = b)
        /\ (forall e b,
              svc (add_annotation (annotation context) true) (backend w) =
                (Raise e, b) ->
              result (reindex svc context request w) = Raise e)).
Proof.
  intros Hdev. split.
  - intros Hfalse.
    now rewrite (reindex_not_dev context request w dev Hdev Hfalse).
  - intros Htrue.
    unfold reindex, bind, getitem, invoke. rewrite Hdev. cbn.
    rewrite Htrue. cbn.
    destruct (svc (add_annotation (annotation context) true) (backend w))
      as [r b'] eqn:E.
    destruct r as [[]|e']; cbn.
    + repeat split; try reflexivity; intros; congruence.
    + repeat split; try reflexivity; intros; congruence.
Qed.

(** *** delete *)

(** C5.  When the deletion collaborator returns, [delete] answers with
    exactly the two-entry dict [{"id": <annotation id>, "deleted": True}],
    and the view hands no event to [notify_after_commit]. *)
Theorem delete_acknowledges_without_event context request w b :
  svc (annotation_delete_service_delete (annotation context)) (backend w) =
    (Return tt, b) ->
  let out : gmap string value :=
    <["deleted" := VBool true]>
      (<["id" := VStr (id (annotation context))]> ∅) in
  result (annotations.delete svc context request w) = Return out
  /\ out !! "id" = Some (VStr (id (annotation context)))
  /\ out !! "deleted" = Some (VBool true)
  /\ size out = 2%nat
  /\ scheduled (trace (annotations.delete svc context request w)) = [].
Proof.
  intros H out. unfold annotations.delete, bind, invoke. rewrite H. cbn.
  repeat split.
Qed.

(** The view [delete] schedules no event on its failure path either. *)
Lemma delete_never_schedules context request w :
  scheduled (trace (annotations.delete svc context request w)) = [].
Proof.
  unfold annotations.delete, bind, invoke.
  destruct (svc _ (backend w)) as [[[]|e] b]; reflexivity.
Qed.

(** *** create and update *)

(** C1.  When the payload validates and the annotation write service
    returns the annotation [a], [create] (resp. [update]) hands exactly one
    event to [notify_after_commit]: its action is ["create"] (resp.
    ["update"]), its annotation id is [id a], and in the history of the
    call it comes right after the write service has returned and before
    the annotation is presented. *)
Theorem create_update_schedule_one_event_after_write :
  (forall request w payload b1 appstruct b2 a b3,
      svc (json_payload request) (backend w) = (Return payload, b1) ->
      svc (CreateAnnotationSchema_validate request payload) b1 =
        (Return appstruct, b2) ->
      svc (create_annotation appstruct) b2 = (Return a, b3) ->
      let event := {| request := request; annotation_id := id a;
                      action := "create" |} in
      trace (create svc request w) =
        [Invoked (json_payload request) true;
         Invoked (CreateAnnotationSchema_validate request payload) true;
         Invoked (create_annotation appstruct) true;
         Notified event;
         Invoked (present_for_user a (user request))
           (returned (svc (present_for_user a (user request)) b3).1)]
      /\ scheduled (trace (create svc request w)) = [event])
  /\
  (forall context request w payload b1 appstruct b2 a b3,
      svc (json_payload request) (backend w) = (Return payload, b1) ->
      svc (UpdateAnnotationSchema_validate request
             (target_uri (annotation context)) (groupid (annotation context))
             payload) b1 = (Return appstruct, b2) ->
      svc (update_annotation (annotation context) appstruct) b2 =
        (Return a, b3) ->
      let event := {| request := request; annotation_id := id a;
                      action := "update" |} in
      trace (update svc context request w) =
        [Invoked (json_payload request) true;
         Invoked (UpdateAnnotationSchema_validate request
                    (target_uri (annotation context))
                    (groupid (annotation context)) payload) true;
         Invoked (update_annotation (annotation context) appstruct) true;
         Notified event;
         Invoked (present_for_user a (user request))
           (returned (svc (present_for_user a (user request)) b3).1)]
      /\ scheduled (trace (update svc context request w)) = [event]).
Proof.
  split.
  - intros request w payload b1 appstruct b2 a b3 Hp Hv Hc event.
    unfold create, _publish_annotation_event, bind, invoke, notify_after_commit.
    rewrite Hp. cbn. rewrite Hv. cbn. rewrite Hc. cbn.
    destruct (svc (present_for_user a (user request)) b3) as [[v|e] b4];
      cbn; split; reflexivity.
  - intros context request w payload b1 appstruct b2 a b3 Hp Hv Hc event.
    unfold update, _publish_annotation_event, bind, invoke, notify_after_commit.
    rewrite Hp. cbn. rewrite Hv. cbn. rewrite Hc. cbn.
    destruct (svc (present_for_user a (user request)) b3) as [[v|e] b4];
      cbn; split; reflexivity.
Qed.

(** C2.  When the annotation write service raises, [create] (resp.
    [update]) raises the same exception, its history ends with the failed
    write, and it hands no event to [notify_after_commit]. *)
Theorem create_update_write_failure_schedules_nothing :
  (forall request w payload b1 appstruct b2 e b3,
      svc (json_payload request) (backend w) = (Return payload, b1) ->
      svc (CreateAnnotationSchema_validate request payload) b1 =
        (Return appstruct, b2) ->
      svc (create_annotation appstruct) b2 = (Raise e, b3) ->
      result (create svc request w) = Raise e
      /\ trace (create svc request w) =
           [Invoked (json_payload request) true;
            Invoked (CreateAnnotationSchema_validate request payload) true;
            Invoked (create_annotation appstruct) false]
      /\ scheduled (trace (create svc request w)) = []
      /\ backend (final (create svc request w)) = b3)
  /\
  (forall context request w payload b1 appstruct b2 e b3,
      svc (json_payload request) (backend w) = (Return payload, b1) ->
      svc (UpdateAnnotationSchema_validate request
             (target_uri (annotation context)) (groupid (annotation context))
             payload) b1 = (Return appstruct, b2) ->
      svc (update_annotation (annotation context) appstruct) b2 =
        (Raise e, b3) ->
      result (update svc context request w) = Raise e
      /\ trace (update svc context request w) =
           [Invoked (json_payload request) true;
            Invoked (UpdateAnnotationSchema_validate request
                       (target_uri (annotation context))
                       (groupid (annotation context)) payload) true;
            Invoked (update_annotation (annotation context) appstruct) false]
      /\ scheduled (trace (update svc context request w)) = []
      /\ backend (final (update svc context request w)) = b3).
Proof.
  split.
  - intros request w payload b1 appstruct b2 e b3 Hp Hv Hc.
    unfold create, bind, invoke.
    rewrite Hp. cbn. rewrite Hv. cbn. rewrite Hc. cbn.
    repeat split.
  - intros context request w payload b1 appstruct b2 e b3 Hp Hv Hc.
    unfold update, bind, invoke.
    rewrite Hp. cbn. rewrite Hv. cbn. rewrite Hc. cbn.
    repeat split.
Qed.

(** Whatever its collaborators do, a write view schedules an event only
    if the write service returned: an event in its history means the
    history holds a write that returned, before the event. *)
Lemma create_event_needs_write request w event :
  event ∈ scheduled (trace (create svc request w)) ->
  exists appstruct before after,
    trace (create svc request w) =
      before ++ Invoked (create_annotation appstruct) true
             :: Notified event :: after.
Proof.
  unfold create, _publish_annotation_event, bind, invoke, notify_after_commit.
  destruct (svc (json_payload request) (backend w)) as [[payload|e] b1];
    cbn; [|intros H; inversion H].
  destruct (svc (CreateAnnotationSchema_validate request payload) b1)
    as [[appstruct|e] b2]; cbn; [|intros H; inversion H].
  destruct (svc (create_annotation appstruct) b2) as [[a|e] b3];
    cbn; [|intros H; inversion H].
  destruct (svc (present_for_user a (user request)) b3) as [[v|e] b4]; cbn;
    intros H; apply list_elem_of_singleton in H; subst event;
    eexists appstruct, [_; _], [_]; reflexivity.
Qed.

Lemma update_event_needs_write context request w event :
  event ∈ scheduled (trace (update svc context request w)) ->
  exists appstruct before after,
    trace (update svc context request w) =
      before ++ Invoked (update_annotation (annotation context) appstruct) true
             :: Notified event :: after.
Proof.
  unfold update, _publish_annotation_event, bind, invoke, notify_after_commit.
  destruct (svc (json_payload request) (backend w)) as [[payload|e] b1];
    cbn; [|intros H; inversion H].
  destruct (svc (UpdateAnnotationSchema_validate request _ _ payload) b1)
    as [[appstruct|e] b2]; cbn; [|intros H; inversion H].
  destruct (svc (update_annotation (annotation context) appstruct) b2)
    as [[a|e] b3]; cbn; [|intros H; inversion H].
  destruct (svc (present_for_user a (user request)) b3) as [[v|e] b4]; cbn;
    intros H; apply list_elem_of_singleton in H; subst event;
    eexists appstruct, [_; _], [_]; reflexivity.
Qed.

(** *** Events of the whole module *)

(** C6.  Every event a view of the module hands to [notify_after_commit]
    has one of the actions ["create"], ["update"], ["delete"]; [read] and
    [reindex] hand over no event, whatever their collaborators do. *)
Theorem scheduled_events_have_known_actions v context request w :
  Forall (fun event => action event ∈ AnnotationAction)
    (scheduled (steps svc CONTEXT_URL v context request w))
  /\ scheduled (trace (read svc context request w)) = []
  /\ scheduled (trace (reindex svc context request w)) = [].
Proof.
  assert (scheduled (trace (read svc context request w)) = []) as Hread.
  { unfold read, invoke. now destruct (svc _ (backend w)) as [r b]. }
  assert (scheduled (trace (reindex svc context request w)) = []) as Hreindex.
  { unfold reindex, bind, getitem, invoke.
    destruct (settings request !! "h.dev") as [dev|]; cbn; [|reflexivity].
    destruct (truthy dev); cbn; [|reflexivity].
    now destruct (svc _ (backend w)) as [[[]|e] b]. }
  split; [|split; assumption].
  destruct v; unfold steps.
  - unfold search, bind, invoke.
    next_call svc; [|constructor].
    match goal with
    | |- context [Search_run _ ?s ?r] => set (sep := s); set (rest := r)
    end.
    next_call svc; [|constructor].
    next_call svc; [|constructor].
    destruct (truthy sep); cbn; [|constructor].
    next_call svc; constructor.
  - unfold create, _publish_annotation_event, bind, invoke, notify_after_commit.
    do 3 (next_call svc; [|constructor]).
    next_call svc; (constructor; [cbn; unfold AnnotationAction; set_solver|constructor]).
  - rewrite Hread. constructor.
  - unfold read_jsonld, bind, invoke, set_response. cbn.
    next_call svc; constructor.
  - unfold update, _publish_annotation_event, bind, invoke, notify_after_commit.
    do 3 (next_call svc; [|constructor]).
    next_call svc; (constructor; [cbn; unfold AnnotationAction; set_solver|constructor]).
  - rewrite delete_never_schedules. constructor.
  - rewrite Hreindex. constructor.
Qed.

(** *** search *)

Lemma pop_separate_replies (p : gmap string value) :
  pop "_separate_replies" (VBool false) p =
    (default (VBool false) (p !! "_separate_replies"),
     base.delete "_separate_replies" p).
Proof. reflexivity. Qed.

(** The run of [search] once validation and the search itself have
    returned: first branch of the case analysis all search proofs share. *)
Lemma search_unfold request w (p : gmap string value) b1 (r : SearchResult) b2 :
  svc (validate_query_params (params request)) (backend w) = (Return p, b1) ->
  svc (Search_run request (default (VBool false) (p !! "_separate_replies"))
         (base.delete "_separate_replies" p)) b1 =
    (Return r, b2) ->
  search svc request w =
    let '(rows, b3) :=
      svc (present_all_for_user (annotation_ids r) (user request)) b2 in
    let before :=
      [Invoked (validate_query_params (params request)) true;
       Invoked (Search_run request (default (VBool false) (p !! "_separate_replies"))
                  (base.delete "_separate_replies" p)) true;
       Invoked (present_all_for_user (annotation_ids r) (user request))
         (returned rows)] in
    match rows with
    | Raise e =>
        {| result := Raise e;
           final := {| backend := b3; response := response w |};
           trace := before |}
    | Return rows =>
        let out : gmap string value :=
          <["rows" := VList rows]> (<["total" := VInt (total r)]> ∅) in
        if truthy (default (VBool false) (p !! "_separate_replies")) then
          let '(replies, b4) :=
            svc (present_all_for_user (reply_ids r) (user request)) b3 in
          {| result := match replies with
                       | Return replies =>
                           Return (<["replies" := VList replies]> out)
                       | Raise e => Raise e
                       end;
             final := {| backend := b4; response := response w |};
             trace := before ++
                      [Invoked (present_all_for_user (reply_ids r)
                                  (user request)) (returned replies)] |}
        else
          {| result := Return out;
             final := {| backend := b3; response := response w |};
             trace := before |}
    end.
Proof.
  intros Hv Hr. unfold search, bind, invoke.
  rewrite Hv. cbn -[insert pop]. rewrite pop_separate_replies.
  cbn -[insert]. rewrite Hr. cbn -[insert].
  destruct (svc (present_all_for_user (annotation_ids r) (user request)) b2)
    as [[rows|e] b3]; cbn -[insert]; [|reflexivity].
  destruct (truthy (default (VBool false) (p !! "_separate_replies"))); cbn -[insert]; [|reflexivity].
  destruct (svc (present_all_for_user (reply_ids r) (user request)) b3)
    as [[replies|e] b4]; reflexivity.
Qed.


(** C8.  Once validation and the search library have returned, with the
    result [r]: the only presentation calls [search] makes are bulk calls
    ([present_all_for_user]), first one on the sequence [annotation_ids r]
    as returned, then, if replies are separated, one on the sequence
    [reply_ids r] as returned; no annotation is presented on its own.  The
    lists the presenter returns go into the response as they are, under
    [rows] and [replies]. *)
Theorem search_presents_in_bulk_in_order
    request w (p : gmap string value) b1 (r : SearchResult) b2 :
  svc (validate_query_params (params request)) (backend w) = (Return p, b1) ->
  svc (Search_run request (default (VBool false) (p !! "_separate_replies"))
         (base.delete "_separate_replies" p)) b1 = (Return r, b2) ->
  let separate_replies := default (VBool false) (p !! "_separate_replies") in
  let rows_call := present_all_for_user (annotation_ids r) (user request) in
  let replies_call := present_all_for_user (reply_ids r) (user request) in
  presented_in_bulk (trace (search svc request w)) =
    annotation_ids r ::
      (if truthy separate_replies && returned (svc rows_call b2).1
       then [reply_ids r] else [])
  /\ presented_singly (trace (search svc request w)) = []
  /\ (forall rows b3,
        svc rows_call b2 = (Return rows, b3) ->
        let out : gmap string value :=
          <["rows" := VList rows]> (<["total" := VInt (total r)]> ∅) in
        (truthy separate_replies = false ->
           result (search svc request w) = Return out)
        /\ (forall replies b4,
              truthy separate_replies = true ->
              svc replies_call b3 = (Return replies, b4) ->
              result (search svc request w) =
                Return (<["replies" := VList replies]> out))).
Proof.
  intros Hv Hr separate_replies rows_call replies_call.
  rewrite (search_unfold request w p b1 r b2 Hv Hr).
  fold separate_replies rows_call replies_call.
  destruct (svc rows_call b2) as [[rows|e] b3] eqn:Erows; cbn -[insert].
  - destruct (truthy separate_replies) eqn:Esep; cbn -[insert].
    + destruct (svc replies_call b3) as [[replies|e] b4] eqn:Ereplies;
        cbn -[insert]; (split_and!; [reflexivity|reflexivity|]);
        intros rows' b3' [= <- <-]; (split; [discriminate|]);
        intros replies' b4' _ Hreplies; rewrite Ereplies in Hreplies;
        now inversion Hreplies.
    + split_and!; [reflexivity|reflexivity|].
      intros rows' b3' [= <- <-]. split; [reflexivity|].
      intros replies' b4' H. discriminate.
  - rewrite andb_false_r. split_and!; [reflexivity|reflexivity|].
    intros rows' b3' H. discriminate.
Qed.

(** Membership of a call in a short, explicit list of calls. *)
Ltac which_call H :=
  repeat (apply elem_of_cons in H as [H|H]; [try discriminate H|]);
  try solve [inversion H].

(** C7.  The parameters [search] forwards to the search library never
    contain the key [_separate_replies]: on every run, each [Search.run]
    call in the history has parameters without it.  When validation returns
    the parameters [p], the library is called with the flag
    [p["_separate_replies"]], or [False] when [p] has no such key, and with
    [p] less that key, every other parameter unchanged. *)
Theorem search_strips_separate_replies request w :
  (forall request' separate_replies forwarded,
      Search_run request' separate_replies forwarded
        ∈ invocations (trace (search svc request w)) ->
      forwarded !! "_separate_replies" = None)
  /\
  (forall (p : gmap string value) b1,
      svc (validate_query_params (params request)) (backend w) =
        (Return p, b1) ->
      let separate_replies := default (VBool false) (p !! "_separate_replies") in
      let forwarded := base.delete "_separate_replies" p in
      Search_run request separate_replies forwarded
        ∈ invocations (trace (search svc request w))
      /\ (p !! "_separate_replies" = None -> separate_replies = VBool false)
      /\ forwarded !! "_separate_replies" = None
      /\ (forall key, key <> "_separate_replies" ->
                      forwarded !! key = p !! key)).
Proof.
  assert (forall (p : gmap string value) b1,
             svc (validate_query_params (params request)) (backend w) =
               (Return p, b1) ->
             exists rest,
               invocations (trace (search svc request w)) =
                 validate_query_params (params request)
                 :: Search_run request
                      (default (VBool false) (p !! "_separate_replies"))
                      (base.delete "_separate_replies" p)
                 :: rest
               /\ forall request' separate_replies forwarded,
                    Search_run request' separate_replies forwarded ∉ rest)
    as Hcalls.
  { intros p b1 Hv.
    destruct (svc (Search_run request
                     (default (VBool false) (p !! "_separate_replies"))
                     (base.delete "_separate_replies" p)) b1)
      as [[r|e] b2] eqn:Hr.
    - rewrite (search_unfold request w p b1 r b2 Hv Hr).
      destruct (svc (present_all_for_user (annotation_ids r) (user request)) b2)
        as [[rows|e] b3]; cbn -[insert].
      + destruct (truthy (default (VBool false) (p !! "_separate_replies")));
          cbn -[insert].
        * destruct (svc (present_all_for_user (reply_ids r) (user request)) b3)
            as [[replies|e] b4]; cbn -[insert];
            eexists; (split; [reflexivity|]); intros ??? H; which_call H.
        * eexists; (split; [reflexivity|]); intros ??? H; which_call H.
      + eexists; (split; [reflexivity|]); intros ??? H; which_call H.
    - unfold search, bind, invoke. rewrite Hv. cbn -[insert pop].
      rewrite pop_separate_replies. cbn -[insert]. rewrite Hr. cbn.
      exists []. split; [reflexivity|]. intros ??? H. inversion H. }
  split.
  - intros request' separate_replies forwarded Hin.
    destruct (svc (validate_query_params (params request)) (backend w))
      as [[p|e] b1] eqn:Hv.
    + destruct (Hcalls p b1 eq_refl) as (rest & Heq & Hrest).
      rewrite Heq in Hin.
      apply elem_of_cons in Hin as [Hin|Hin]; [discriminate|].
      apply elem_of_cons in Hin as [Hin|Hin]; [|now apply Hrest in Hin].
      injection Hin as _ _ ->. apply lookup_delete_eq.
    + unfold search, bind, invoke in Hin. rewrite Hv in Hin. cbn in Hin.
      which_call Hin.
  - intros p b1 Hv separate_replies forwarded.
    destruct (Hcalls p b1 Hv) as (rest & Heq & _).
    split_and!.
    + rewrite Heq. apply list_elem_of_further, list_elem_of_here.
    + intros Hnone. unfold separate_replies. now rewrite Hnone.
    + apply lookup_delete_eq.
    + intros key Hkey. now apply lookup_delete_ne.
Qed.

End ViewFacts.

(** * The theorems on the in-memory collaborators *)

Import annotations.

(** The scenario of the specification: creating with the payload "hi"
    persists [ann1] and schedules one ["create"] event for it; updating
    [ann1] schedules one ["update"] event for it. *)
Lemma create_update_schedule_one_event_after_write_witness :
  let request := request_with [] "hi" None in
  let b := backend empty_world in
  let appstruct : gmap string value := <["text" := VStr "hi"]> ∅ in
  (memory_services (json_payload request) b = (Return (VStr "hi"), b)
   /\ memory_services (CreateAnnotationSchema_validate request (VStr "hi")) b =
        (Return appstruct, b)
   /\ memory_services (create_annotation appstruct) b =
        (Return ann1, {| stored := [ann1]; indexed := [] |})
   /\ scheduled (trace (create memory_services request empty_world)) =
        [{| request := request; annotation_id := "ann1";
            action := "create" |}])
  /\
  (memory_services (UpdateAnnotationSchema_validate request "http://x"
                      "__world__" (VStr "hi")) b = (Return appstruct, b)
   /\ memory_services (update_annotation ann1 appstruct) b = (Return ann1, b)
   /\ scheduled (trace (update memory_services (context_of ann1) request
                          empty_world)) =
        [{| request := request; annotation_id := "ann1";
            action := "update" |}]).
Proof.
  intros request b appstruct. split.
  - split_and!; [reflexivity|reflexivity|reflexivity|].
    exact (proj2 (proj1 (create_update_schedule_one_event_after_write
                           memory_services)
                    request empty_world (VStr "hi") b appstruct b ann1 _
                    eq_refl eq_refl eq_refl)).
  - split_and!; [reflexivity|reflexivity|].
    exact (proj2 (proj2 (create_update_schedule_one_event_after_write
                           memory_services)
                    (context_of ann1) request empty_world (VStr "hi") b
                    appstruct b ann1 b eq_refl eq_refl eq_refl)).
Defined.

(** With the annotation store down, both writes raise and schedule
    nothing. *)
Lemma create_update_write_failure_schedules_nothing_witness :
  let request := request_with [] "hi" None in
  let svc := storage_down memory_services in
  let b := backend empty_world in
  let appstruct : gmap string value := <["text" := VStr "hi"]> ∅ in
  (svc (create_annotation appstruct) b = (Raise (Error "OperationalError"), b)
   /\ result (create svc request empty_world) =
        Raise (Error "OperationalError")
   /\ scheduled (trace (create svc request empty_world)) = [])
  /\
  (svc (update_annotation ann1 appstruct) b =
     (Raise (Error "OperationalError"), b)
   /\ result (update svc (context_of ann1) request empty_world) =
        Raise (Error "OperationalError")
   /\ scheduled (trace (update svc (context_of ann1) request empty_world))
      = []).
Proof.
  intros request svc b appstruct. split.
  - destruct (proj1 (create_update_write_failure_schedules_nothing svc)
                request empty_world (VStr "hi") b appstruct b
                (Error "OperationalError") b
                eq_refl eq_refl eq_refl) as (Hres & _ & Hsched & _).
    split_and!; [reflexivity|exact Hres|exact Hsched].
  - destruct (proj2 (create_update_write_failure_schedules_nothing svc)
                (context_of ann1) request empty_world (VStr "hi") b appstruct b
                (Error "OperationalError") b
                eq_refl eq_refl eq_refl) as (Hres & _ & Hsched & _).
    split_and!; [reflexivity|exact Hres|exact Hsched].
Defined.



Lemma search_presents_in_bulk_in_order_witness :
  let b := backend empty_world in
  memory_services (validate_query_params (params query_separate)) b =
    (Return validated_separate, b)
  /\ memory_services
       (Search_run query_separate (VBool true) (<["q" := VStr "foo"]> ∅)) b =
       (Return found_separate, b)
  /\ presented_in_bulk (trace (search memory_services query_separate
                                 empty_world)) = [["a1"]; ["r1"]]
  /\ presented_singly (trace (search memory_services query_separate
                                empty_world)) = []
  /\ result (search memory_services query_separate empty_world) =
       Return response_separate.
Proof.
  intros b.
  destruct (search_presents_in_bulk_in_order memory_services query_separate
              empty_world validated_separate b found_separate b
              eq_refl eq_refl)
    as (Hbulk & Hsingle & Hresult).
  split_and!; [reflexivity|reflexivity|exact Hbulk|exact Hsingle|].
  exact (proj2 (Hresult [VStr "a1"] b eq_refl) [VStr "r1"] b eq_refl eq_refl).
Defined.

Lemma search_strips_separate_replies_witness :
  let b := backend empty_world in
  let t := trace (search memory_services query_separate empty_world) in
  memory_services (validate_query_params (params query_separate)) b =
    (Return validated_separate, b)
  /\ Search_run query_separate (VBool true) (<["q" := VStr "foo"]> ∅)
       ∈ invocations t
  /\ (<["q" := VStr "foo"]> ∅ : gmap string value) !! "_separate_replies" = None
  /\ Search_run query_plain (VBool false) validated_plain
       ∈ invocations (trace (search memory_services query_plain empty_world)).
Proof.
  intros b t.
  destruct (proj2 (search_strips_separate_replies memory_services
                     query_separate empty_world)
              validated_separate b eq_refl) as (Hin & _ & _ & _).
  destruct (proj2 (search_strips_separate_replies memory_services
                     query_plain empty_world)
              validated_plain b eq_refl) as (Hin' & _ & _ & _).
  split_and!; [reflexivity|exact Hin| |exact Hin'].
  exact (proj1 (search_strips_separate_replies memory_services
                  query_separate empty_world)
           query_separate (VBool true) (<["q" := VStr "foo"]> ∅) Hin).
Defined.

(** Deleting [ann1] is acknowledged with its id. *)
Lemma delete_acknowledges_without_event_witness :
  let request := request_with [] "" None in
  memory_services (annotation_delete_service_delete ann1)
    (backend empty_world) = (Return tt, backend empty_world)
  /\ result (annotations.delete memory_services (context_of ann1) request
               empty_world) =
       Return (<["deleted" := VBool true]> (<["id" := VStr "ann1"]> ∅))
  /\ scheduled (trace (annotations.delete memory_services (context_of ann1)
                         request empty_world)) = [].
Proof.
  intros request.
  destruct (delete_acknowledges_without_event memory_services
              (context_of ann1) request empty_world (backend empty_world)
              eq_refl) as (Hres & _ & _ & _ & Hsched).
  split_and!; [reflexivity|exact Hres|exact Hsched].
Defined.

(** Outside dev mode [reindex] of [ann1] fails and the index stays empty. *)
Lemma reindex_outside_dev_mode_touches_nothing_witness :
  let request := request_with [] "" (Some (VBool false)) in
  settings request !! "h.dev" = Some (VBool false)
  /\ truthy (VBool false) = false
  /\ result (reindex memory_services (context_of ann1) request empty_world) =
       Raise HTTPNotFound
  /\ final (reindex memory_services (context_of ann1) request empty_world) =
       empty_world.
Proof.
  intros request.
  destruct (reindex_outside_dev_mode_touches_nothing memory_services
              (context_of ann1) request empty_world (VBool false)
              eq_refl eq_refl) as (Hres & _ & _ & Hfinal).
  split_and!; [reflexivity|reflexivity|exact Hres|exact Hfinal].
Defined.

(** In dev mode [reindex] of [ann1] indexes it and acknowledges. *)
Lemma reindex_dev_mode_gate_witness :
  let request := request_with [] "" (Some (VBool true)) in
  settings request !! "h.dev" = Some (VBool true)
  /\ truthy (VBool true) = true
  /\ memory_services (add_annotation ann1 true) (backend empty_world) =
       (Return tt, {| stored := []; indexed := ["ann1"] |})
  /\ result (reindex memory_services (context_of ann1) request empty_world) =
       Return (<["indexed" := VBool true]> (<["id" := VStr "ann1"]> ∅))
  /\ backend (final (reindex memory_services (context_of ann1) request
                       empty_world)) =
       {| stored := []; indexed := ["ann1"] |}.
Proof.
  intros request.
  destruct (reindex_dev_mode_gate memory_services (context_of ann1) request
              empty_world (VBool true) eq_refl) as [_ Hdev].
  destruct (Hdev eq_refl) as (_ & Hok & _).
  destruct (Hok _ eq_refl) as [Hres Hfinal].
  split_and!; [reflexivity|reflexivity|reflexivity|exact Hres|exact Hfinal].
Defined.

(** C4, as stated, fails: in dev mode, with the search index unreachable,
    [reindex] does not succeed; the failure of [add_annotation] reaches the
    caller. *)
Lemma reindex_dev_mode_fails_when_index_down :
  settings dev_request !! "h.dev" = Some (VBool true)
  /\ truthy (VBool true) = true
  /\ result (reindex (search_index_down memory_services) (context_of ann1)
               dev_request empty_world) = Raise (Error "ConnectionError")
  /\ ~ (exists out,
          result (reindex (search_index_down memory_services)
                    (context_of ann1) dev_request empty_world) = Return out).
Proof.
  split_and!; [reflexivity|reflexivity|reflexivity|].
  intros [out Hout]. vm_compute in Hout. discriminate Hout.
Qed.

(** * Further properties of the views *)

Section FailureFacts.

Context {Backend : Type}.
Implicit Types w : World Backend.

Lemma all_returned_app t1 t2 :
  all_returned (t1 ++ t2) = all_returned t1 && all_returned t2.
Proof. apply forallb_app. Qed.

Lemma all_returned_removelast t :
  all_returned t = true -> all_returned (removelast t) = true.
Proof.
  induction t as [|s t IH]; [reflexivity|].
  intros H. cbn in H. apply andb_prop in H as [Hs Ht].
  destruct t as [|s' t]; [reflexivity|].
  change (removelast (s :: s' :: t)) with (s :: removelast (s' :: t)).
  cbn -[removelast]. rewrite Hs. exact (IH Ht).
Qed.

Lemma failure_is_last_ret {A} (a : A) w :
  failure_is_last (ret (Backend := Backend) a w) = true.
Proof. reflexivity. Qed.

Lemma failure_is_last_raise {A} e w :
  failure_is_last (raise (Backend := Backend) (A := A) e w) = true.
Proof. reflexivity. Qed.

Lemma failure_is_last_invoke (svc : Services Backend) i w :
  failure_is_last (invoke svc i w) = true.
Proof.
  unfold failure_is_last, invoke.
  now destruct (svc i (backend w)) as [[a|e] b].
Qed.

Lemma failure_is_last_bind {A B}
    (m : M Backend A) (k : A -> M Backend B) w :
  failure_is_last (m w) = true ->
  (forall a w', failure_is_last (k a w') = true) ->
  failure_is_last (bind m k w) = true.
Proof.
  unfold failure_is_last at 1. unfold bind. intros Hm Hk.
  destruct (result (m w)) as [a|e] eqn:Em; [|unfold failure_is_last; cbn; exact Hm].
  specialize (Hk a (final (m w))). unfold failure_is_last in *. cbn.
  destruct (result (k a (final (m w)))) as [c|e].
  - rewrite all_returned_app, Hm, Hk. reflexivity.
  - destruct (trace (k a (final (m w)))) as [|s t].
    + rewrite app_nil_r. now apply all_returned_removelast.
    + rewrite removelast_app by discriminate.
      rewrite all_returned_app, Hm. exact Hk.
Qed.

Lemma failure_is_last_forget {A} (o : Outcome Backend A) :
  failure_is_last (forget o) = failure_is_last o.
Proof. unfold failure_is_last, forget. cbn. now destruct (result o). Qed.

End FailureFacts.

Ltac invoke_stops :=
  match goal with
  | |- failure_is_last (invoke ?s ?i ?w) = true =>
      exact (failure_is_last_invoke s i w)
  end.

(** Which entry of a short, explicit list of calls a given call is. *)
Ltac pick_call H :=
  repeat (apply elem_of_cons in H as [H|H]; [try discriminate H|]);
  try solve [inversion H].

Section ModuleFacts.

Context {Backend : Type}.
Variable svc : Services Backend.
Variable CONTEXT_URL : string.
Implicit Types (w : World Backend) (request : Request) (context : Context).

Import annotations.

(** X1.  No view swallows a failure or goes on after one: when a view
    returns, every collaborator call it made returned; when it raises,
    every call before its last step returned. *)
Theorem views_stop_at_first_failure v context request w :
  failure_is_last (serve svc CONTEXT_URL v context request w) = true.
Proof.
  destruct v; unfold serve; rewrite failure_is_last_forget.
  - unfold search.
    apply failure_is_last_bind; [invoke_stops|].
    intros p w1. destruct (pop "_separate_replies" (VBool false) p) as [sep rest].
    apply failure_is_last_bind; [invoke_stops|].
    intros r w2.
    apply failure_is_last_bind; [invoke_stops|].
    intros rows w3. destruct (truthy sep); [|reflexivity].
    apply failure_is_last_bind; [invoke_stops|reflexivity].
  - unfold create, _publish_annotation_event.
    do 3 (apply failure_is_last_bind; [invoke_stops|intros]).
    apply failure_is_last_bind; [reflexivity|intros].
    invoke_stops.
  - unfold read. invoke_stops.
  - unfold read_jsonld.
    apply failure_is_last_bind; [reflexivity|intros].
    invoke_stops.
  - unfold update, _publish_annotation_event.
    do 3 (apply failure_is_last_bind; [invoke_stops|intros]).
    apply failure_is_last_bind; [reflexivity|intros].
    invoke_stops.
  - unfold annotations.delete.
    apply failure_is_last_bind; [invoke_stops|reflexivity].
  - unfold reindex.
    apply failure_is_last_bind.
    + unfold getitem. now destruct (settings request !! "h.dev").
    + intros dev w'. destruct (negb (truthy dev)); [reflexivity|].
      apply failure_is_last_bind; [invoke_stops|reflexivity].
Qed.

(** Unfold a served view and follow every path through its collaborator
    calls. *)
Ltac all_paths svc :=
  unfold serve, forget, steps, search, create, read, read_jsonld, update,
    annotations.delete, reindex, _publish_annotation_event, bind, invoke,
    notify_after_commit, set_response, getitem, ret, raise, pop;
  cbn -[insert];
  repeat first
    [ match goal with
      | |- context [svc ?i ?b] =>
          let r := fresh "r" in
          let b' := fresh "b" in
          destruct (svc i b) as [r b']; destruct r; cbn -[insert]
      end
    | match goal with
      | |- context [settings ?r !! ?k] =>
          destruct (settings r !! k); cbn -[insert]
      end
    | match goal with
      | |- context [truthy ?x] => destruct (truthy x); cbn -[insert]
      end ].

(** X2.  Whatever the collaborators do, a view hands at most one event
    to [notify_after_commit], the event carries the request being served,
    and only [create] and [update] hand over any. *)
Theorem views_schedule_at_most_one_event v context request w :
  let handed := scheduled (trace (serve svc CONTEXT_URL v context request w)) in
  (length handed <= 1)%nat
  /\ Forall (fun event => events.request event = request) handed
  /\ (v = api_create \/ v = api_update \/ handed = []).
Proof.
  destruct v; all_paths svc;
    (split_and!;
     [ lia
     | repeat constructor
     | first [ now left | now (right; left) | now (right; right) ] ]).
Qed.

(** X3.  The only writing call a view makes is the one of its own
    operation, at most once, on the annotation of its context: [search],
    [read] and [read_jsonld] never call the write service, the deletion
    service or the search index; [delete] always calls the deletion
    service, exactly once. *)
Theorem views_write_only_their_own v context request w :
  let written :=
    List.filter writes
      (invocations (trace (serve svc CONTEXT_URL v context request w))) in
  match v with
  | api_create => written = [] \/ exists data, written = [create_annotation data]
  | api_update =>
      written = [] \/
      exists data, written = [update_annotation (annotation context) data]
  | api_delete =>
      written = [annotation_delete_service_delete (annotation context)]
  | api_reindex =>
      written = [] \/ written = [add_annotation (annotation context) true]
  | api_search | api_read | api_read_jsonld => written = []
  end.
Proof.
  destruct v; all_paths svc; eauto.
Qed.

(** X4.  Only [read_jsonld] touches [request.response]: every other view
    leaves it as it found it, on every path. *)
Theorem views_leave_response_alone v context request w :
  v <> api_read_jsonld ->
  response (final (serve svc CONTEXT_URL v context request w)) = response w.
Proof.
  intros Hv. destruct v; try congruence; all_paths svc; reflexivity.
Qed.

(** *** create and update, off the success path *)

(** X5.  A payload that cannot be parsed or does not validate stops
    [create] and [update] before anything is written: the exception of
    [json_payload] or of the schema reaches the caller, the history ends
    there, without a call to the write service and without an event. *)
Theorem create_update_reject_before_writing :
  (forall request w,
      (forall e b1,
          svc (json_payload request) (backend w) = (Raise e, b1) ->
          create svc request w =
            {| result := Raise e;
               final := {| backend := b1; response := response w |};
               trace := [Invoked (json_payload request) false] |})
      /\ (forall payload b1 e b2,
             svc (json_payload request) (backend w) = (Return payload, b1) ->
             svc (CreateAnnotationSchema_validate request payload) b1 =
               (Raise e, b2) ->
             create svc request w =
               {| result := Raise e;
                  final := {| backend := b2; response := response w |};
                  trace :=
                    [Invoked (json_payload request) true;
                     Invoked (CreateAnnotationSchema_validate request payload)
                       false] |}))
  /\
  (forall context request w,
      (forall e b1,
          svc (json_payload request) (backend w) = (Raise e, b1) ->
          update svc context request w =
            {| result := Raise e;
               final := {| backend := b1; response := response w |};
               trace := [Invoked (json_payload request) false] |})
      /\ (forall payload b1 e b2,
             svc (json_payload request) (backend w) = (Return payload, b1) ->
             svc (UpdateAnnotationSchema_validate request
                    (target_uri (annotation context))
                    (groupid (annotation context)) payload) b1 =
               (Raise e, b2) ->
             update svc context request w =
               {| result := Raise e;
                  final := {| backend := b2; response := response w |};
                  trace :=
                    [Invoked (json_payload request) true;
                     Invoked (UpdateAnnotationSchema_validate request
                                (target_uri (annotation context))
                                (groupid (annotation context)) payload)
                       false] |})).
Proof.
  split; [intros request w|intros context request w]; split.
  - intros e b1 Hp. unfold create, bind, invoke. now rewrite Hp.
  - intros payload b1 e b2 Hp Hv. unfold create, bind, invoke.
    rewrite Hp. cbn. now rewrite Hv.
  - intros e b1 Hp. unfold update, bind, invoke. now rewrite Hp.
  - intros payload b1 e b2 Hp Hv. unfold update, bind, invoke.
    rewrite Hp. cbn. now rewrite Hv.
Qed.

(** X6.  The write service only ever receives validated data: the data
    [create] hands to [create_annotation] is what
    [CreateAnnotationSchema] returned for the payload of the request; the
    annotation [update] hands to [update_annotation] is the one of the
    context, and the data is what [UpdateAnnotationSchema], built with that
    annotation's [target_uri] and [groupid], returned for the payload. *)
Theorem writes_receive_validated_data :
  (forall request w data,
      create_annotation data ∈ invocations (trace (create svc request w)) ->
      exists payload b1 b2,
        svc (json_payload request) (backend w) = (Return payload, b1)
        /\ svc (CreateAnnotationSchema_validate request payload) b1 =
             (Return data, b2))
  /\
  (forall context request w a data,
      update_annotation a data
        ∈ invocations (trace (update svc context request w)) ->
      a = annotation context
      /\ exists payload b1 b2,
           svc (json_payload request) (backend w) = (Return payload, b1)
           /\ svc (UpdateAnnotationSchema_validate request
                     (target_uri (annotation context))
                     (groupid (annotation context)) payload) b1 =
                (Return data, b2)).
Proof.
  split.
  - intros request w data.
    unfold create, _publish_annotation_event, bind, invoke, notify_after_commit.
    destruct (svc (json_payload request) (backend w)) as [[payload|e] b1];
      cbn; [|intros H; pick_call H].
    destruct (svc (CreateAnnotationSchema_validate request payload) b1)
      as [[appstruct|e] b2] eqn:Hv; cbn; [|intros H; pick_call H].
    destruct (svc (create_annotation appstruct) b2) as [[a|e] b3]; cbn.
    + destruct (svc (present_for_user a (user request)) b3) as [[v|e] b4];
        cbn; intros H; pick_call H; injection H as ->; eauto.
    + intros H; pick_call H; injection H as ->; eauto.
  - intros context request w a data.
    unfold update, _publish_annotation_event, bind, invoke, notify_after_commit.
    destruct (svc (json_payload request) (backend w)) as [[payload|e] b1];
      cbn; [|intros H; pick_call H].
    destruct (svc (UpdateAnnotationSchema_validate request _ _ payload) b1)
      as [[appstruct|e] b2] eqn:Hv; cbn; [|intros H; pick_call H].
    destruct (svc (update_annotation (annotation context) appstruct) b2)
      as [[a'|e] b3]; cbn.
    + destruct (svc (present_for_user a' (user request)) b3) as [[v|e] b4];
        cbn; intros H; pick_call H; injection H as -> ->; eauto 6.
    + intros H; pick_call H; injection H as -> ->; eauto 6.
Qed.

(** X7.  The response of a write is a read of what was written: once the
    write service has returned the annotation [a], [create] and [update]
    return exactly what [read] returns for [a] and the same user on the
    backend as the write left it. *)
Theorem write_response_is_read_of_written :
  (forall request w payload b1 appstruct b2 a b3,
      svc (json_payload request) (backend w) = (Return payload, b1) ->
      svc (CreateAnnotationSchema_validate request payload) b1 =
        (Return appstruct, b2) ->
      svc (create_annotation appstruct) b2 = (Return a, b3) ->
      let after := {| backend := b3; response := response w |} in
      result (create svc request w) =
        result (read svc {| annotation := a |} request after)
      /\ final (create svc request w) =
           final (read svc {| annotation := a |} request after))
  /\
  (forall context request w payload b1 appstruct b2 a b3,
      svc (json_payload request) (backend w) = (Return payload, b1) ->
      svc (UpdateAnnotationSchema_validate request
             (target_uri (annotation context)) (groupid (annotation context))
             payload) b1 = (Return appstruct, b2) ->
      svc (update_annotation (annotation context) appstruct) b2 =
        (Return a, b3) ->
      let after := {| backend := b3; response := response w |} in
      result (update svc context request w) =
        result (read svc {| annotation := a |} request after)
      /\ final (update svc context request w) =
           final (read svc {| annotation := a |} request after)).
Proof.
  split.
  - intros request w payload b1 appstruct b2 a b3 Hp Hv Hc after.
    unfold create, read, _publish_annotation_event, bind, invoke,
      notify_after_commit.
    rewrite Hp. cbn. rewrite Hv. cbn. rewrite Hc. cbn.
    now destruct (svc (present_for_user a (user request)) b3) as [[v|e] b4].
  - intros context request w payload b1 appstruct b2 a b3 Hp Hv Hc after.
    unfold update, read, _publish_annotation_event, bind, invoke,
      notify_after_commit.
    rewrite Hp. cbn. rewrite Hv. cbn. rewrite Hc. cbn.
    now destruct (svc (present_for_user a (user request)) b3) as [[v|e] b4].
Qed.

(** X8.  The event is scheduled before the annotation is presented: when
    the write returned and [present_for_user] then raises, [create] and
    [update] raise that exception, yet the event of the write is on the
    queue and the backend is as the collaborators left it; the view undoes
    nothing. *)
Theorem presentation_failure_keeps_event :
  (forall request w payload b1 appstruct b2 a b3 e b4,
      svc (json_payload request) (backend w) = (Return payload, b1) ->
      svc (CreateAnnotationSchema_validate request payload) b1 =
        (Return appstruct, b2) ->
      svc (create_annotation appstruct) b2 = (Return a, b3) ->
      svc (present_for_user a (user request)) b3 = (Raise e, b4) ->
      result (create svc request w) = Raise e
      /\ scheduled (trace (create svc request w)) =
           [{| request := request; annotation_id := id a;
               action := "create" |}]
      /\ backend (final (create svc request w)) = b4)
  /\
  (forall context request w payload b1 appstruct b2 a b3 e b4,
      svc (json_payload request) (backend w) = (Return payload, b1) ->
      svc (UpdateAnnotationSchema_validate request
             (target_uri (annotation context)) (groupid (annotation context))
             payload) b1 = (Return appstruct, b2) ->
      svc (update_annotation (annotation context) appstruct) b2 =
        (Return a, b3) ->
      svc (present_for_user a (user request)) b3 = (Raise e, b4) ->
      result (update svc context request w) = Raise e
      /\ scheduled (trace (update svc context request w)) =
           [{| request := request; annotation_id := id a;
               action := "update" |}]
      /\ backend (final (update svc context request w)) = b4).
Proof.
  split.
  - intros request w payload b1 appstruct b2 a b3 e b4 Hp Hv Hc Hpres.
    unfold create, _publish_annotation_event, bind, invoke,
      notify_after_commit.
    rewrite Hp. cbn. rewrite Hv. cbn. rewrite Hc. cbn. rewrite Hpres.
    repeat split.
  - intros context request w payload b1 appstruct b2 a b3 e b4 Hp Hv Hc Hpres.
    unfold update, _publish_annotation_event, bind, invoke,
      notify_after_commit.
    rewrite Hp. cbn. rewrite Hv. cbn. rewrite Hc. cbn. rewrite Hpres.
    repeat split.
Qed.

(** *** search, off the success path, and the shape of its response *)

(** X9.  A failure stops [search] where it happens: when validation of
    the query raises, the search library is not called; when the search
    library raises, nothing is presented; when the replies cannot be
    presented, [search] raises and returns no partial response with only
    the rows.  Each time the exception reaches the caller. *)
Theorem search_failures_stop_the_search request w :
  (forall e b1,
      svc (validate_query_params (params request)) (backend w) =
        (Raise e, b1) ->
      search svc request w =
        {| result := Raise e;
           final := {| backend := b1; response := response w |};
           trace := [Invoked (validate_query_params (params request)) false] |})
  /\
  (forall (p : gmap string value) b1 e b2,
      svc (validate_query_params (params request)) (backend w) =
        (Return p, b1) ->
      svc (Search_run request (default (VBool false) (p !! "_separate_replies"))
             (base.delete "_separate_replies" p)) b1 = (Raise e, b2) ->
      search svc request w =
        {| result := Raise e;
           final := {| backend := b2; response := response w |};
           trace :=
             [Invoked (validate_query_params (params request)) true;
              Invoked (Search_run request
                         (default (VBool false) (p !! "_separate_replies"))
                         (base.delete "_separate_replies" p)) false] |})
  /\
  (forall (p : gmap string value) b1 (r : SearchResult) b2 rows b3 e b4,
      svc (validate_query_params (params request)) (backend w) =
        (Return p, b1) ->
      svc (Search_run request (default (VBool false) (p !! "_separate_replies"))
             (base.delete "_separate_replies" p)) b1 = (Return r, b2) ->
      truthy (default (VBool false) (p !! "_separate_replies")) = true ->
      svc (present_all_for_user (annotation_ids r) (user request)) b2 =
        (Return rows, b3) ->
      svc (present_all_for_user (reply_ids r) (user request)) b3 =
        (Raise e, b4) ->
      result (search svc request w) = Raise e
      /\ backend (final (search svc request w)) = b4).
Proof.
  split_and!.
  - intros e b1 Hv. unfold search, bind, invoke. now rewrite Hv.
  - intros p b1 e b2 Hv Hr. unfold search, bind, invoke.
    rewrite Hv. cbn -[insert pop]. rewrite pop_separate_replies.
    cbn -[insert]. now rewrite Hr.
  - intros p b1 r b2 rows b3 e b4 Hv Hr Hsep Hrows Hreplies.
    rewrite (search_unfold svc request w p b1 r b2 Hv Hr).
    rewrite Hrows, Hsep, Hreplies. split; reflexivity.
Qed.

(** X10.  A response of [search] has the keys [total] and [rows], the key
    [replies] when replies are separated, and no other key; [total] is the
    total of the search library, passed on as it is. *)
Theorem search_response_keys_and_total
    request w (p : gmap string value) b1 (r : SearchResult) b2 out :
  svc (validate_query_params (params request)) (backend w) = (Return p, b1) ->
  svc (Search_run request (default (VBool false) (p !! "_separate_replies"))
         (base.delete "_separate_replies" p)) b1 = (Return r, b2) ->
  result (search svc request w) = Return out ->
  dom out =
    ({["total"; "rows"]} : gset string) ∪
    (if truthy (default (VBool false) (p !! "_separate_replies"))
     then {["replies"]} else ∅)
  /\ out !! "total" = Some (VInt (total r)).
Proof.
  intros Hv Hr. rewrite (search_unfold svc request w p b1 r b2 Hv Hr).
  destruct (svc (present_all_for_user (annotation_ids r) (user request)) b2)
    as [[rows|e] b3]; cbn -[insert]; [|discriminate].
  destruct (truthy (default (VBool false) (p !! "_separate_replies"))).
  - destruct (svc (present_all_for_user (reply_ids r) (user request)) b3)
      as [[replies|e] b4]; cbn -[insert]; [|discriminate].
    intros [= <-]. split.
    + rewrite !dom_insert_L, dom_empty_L. set_solver.
    + now rewrite !lookup_insert_ne, lookup_insert_eq by discriminate.
  - cbn -[insert]. intros [= <-]. split.
    + rewrite !dom_insert_L, dom_empty_L. set_solver.
    + now rewrite lookup_insert_ne, lookup_insert_eq by discriminate.
Qed.

(** *** reindex, read_jsonld and delete *)

(** X11.  Without an [h.dev] entry in the settings, [reindex] fails with
    the [KeyError] of the subscript, not with [HTTPNotFound]; it calls no
    collaborator and changes nothing. *)
Theorem reindex_without_setting_is_key_error context request w :
  settings request !! "h.dev" = None ->
  reindex svc context request w =
    {| result := Raise (KeyError "h.dev"); final := w; trace := [] |}.
Proof.
  intros Hdev. unfold reindex, bind, getitem. now rewrite Hdev.
Qed.

(** X12.  [read_jsonld] marks the response as JSON-LD before it presents:
    whatever the response held and whether or not the presenter returns,
    the content type is [application/ld+json] with the parameters
    [charset=UTF-8] and [profile=CONTEXT_URL].  Its only collaborator call
    is the JSON-LD presenter on the annotation of the context, whose dict
    (or exception) is the result. *)
Theorem read_jsonld_marks_response context request w :
  let o := read_jsonld svc CONTEXT_URL context request w in
  let presented :=
    svc (AnnotationJSONLDPresenter_asdict (annotation context)) (backend w) in
  content_type (response (final o)) = "application/ld+json"
  /\ content_type_params (response (final o)) !! "charset" = Some "UTF-8"
  /\ content_type_params (response (final o)) !! "profile" = Some CONTEXT_URL
  /\ dom (content_type_params (response (final o))) =
       ({["charset"; "profile"]} : gset string)
  /\ result o = presented.1
  /\ backend (final o) = presented.2
  /\ invocations (trace o) =
       [AnnotationJSONLDPresenter_asdict (annotation context)].
Proof.
  unfold read_jsonld, bind, invoke, set_response. cbn -[insert].
  destruct (svc (AnnotationJSONLDPresenter_asdict (annotation context))
              (backend w)) as [[d|e] b]; cbn -[insert];
    (split_and!;
     [ reflexivity
     | now rewrite lookup_insert_ne, lookup_insert_eq by discriminate
     | now rewrite lookup_insert_eq
     | rewrite !dom_insert_L, dom_empty_L; set_solver
     | reflexivity | reflexivity | reflexivity ]).
Qed.

(** X13.  When the deletion service raises, [delete] raises the same
    exception instead of acknowledging; the deletion service was its only
    call. *)
Theorem delete_failure_is_not_acknowledged context request w e b :
  svc (annotation_delete_service_delete (annotation context)) (backend w) =
    (Raise e, b) ->
  annotations.delete svc context request w =
    {| result := Raise e;
       final := {| backend := b; response := response w |};
       trace :=
         [Invoked (annotation_delete_service_delete (annotation context))
            false] |}.
Proof.
  intros H. unfold annotations.delete, bind, invoke. now rewrite H.
Qed.

End ModuleFacts.

(** * The further properties on the in-memory collaborators *)

Lemma views_leave_response_alone_witness :
  api_create <> api_read_jsonld
  /\ response (final (serve memory_services "http://www.w3.org/ns/anno.jsonld"
                        api_create (context_of ann1) plain_request
                        empty_world)) = response empty_world.
Proof.
  split; [discriminate|].
  apply (views_leave_response_alone memory_services
           "http://www.w3.org/ns/anno.jsonld" api_create).
  discriminate.
Defined.

(** With schemas that reject the payload nothing is stored. *)
Lemma create_update_reject_before_writing_witness :
  let svc := rejecting_schemas memory_services in
  let b := backend empty_world in
  svc (json_payload plain_request) b = (Return (VStr "hi"), b)
  /\ svc (CreateAnnotationSchema_validate plain_request (VStr "hi")) b =
       (Raise (Error "ValidationError"), b)
  /\ result (create svc plain_request empty_world) =
       Raise (Error "ValidationError")
  /\ final (create svc plain_request empty_world) = empty_world
  /\ result (update svc (context_of ann1) plain_request empty_world) =
       Raise (Error "ValidationError").
Proof.
  intros svc b.
  pose proof (proj2 (proj1 (create_update_reject_before_writing svc)
                       plain_request empty_world)
                (VStr "hi") b (Error "ValidationError") b eq_refl eq_refl)
    as Hcreate.
  pose proof (proj2 (proj2 (create_update_reject_before_writing svc)
                       (context_of ann1) plain_request empty_world)
                (VStr "hi") b (Error "ValidationError") b eq_refl eq_refl)
    as Hupdate.
  split_and!; [reflexivity|reflexivity| | |].
  - now rewrite Hcreate.
  - now rewrite Hcreate.
  - now rewrite Hupdate.
Defined.

Lemma writes_receive_validated_data_witness :
  let appstruct : gmap string value := <["text" := VStr "hi"]> ∅ in
  create_annotation appstruct
    ∈ invocations (trace (create memory_services plain_request empty_world))
  /\ exists payload b1 b2,
       memory_services (json_payload plain_request) (backend empty_world) =
         (Return payload, b1)
       /\ memory_services
            (CreateAnnotationSchema_validate plain_request payload) b1 =
            (Return appstruct, b2).
Proof.
  intros appstruct.
  assert (create_annotation appstruct
            ∈ invocations (trace (create memory_services plain_request
                                    empty_world))) as Hin.
  { apply list_elem_of_further, list_elem_of_further, list_elem_of_here. }
  split; [exact Hin|].
  exact (proj1 (writes_receive_validated_data memory_services)
           plain_request empty_world appstruct Hin).
Defined.

Lemma write_response_is_read_of_written_witness :
  let b := backend empty_world in
  let appstruct : gmap string value := <["text" := VStr "hi"]> ∅ in
  let after : World Store :=
    {| backend := {| stored := [ann1]; indexed := [] |};
       response := response empty_world |} in
  memory_services (json_payload plain_request) b = (Return (VStr "hi"), b)
  /\ memory_services
       (CreateAnnotationSchema_validate plain_request (VStr "hi")) b =
       (Return appstruct, b)
  /\ memory_services (create_annotation appstruct) b =
       (Return ann1, backend after)
  /\ result (create memory_services plain_request empty_world) =
       result (read memory_services (context_of ann1) plain_request after).
Proof.
  intros b appstruct after.
  split_and!; [reflexivity|reflexivity|reflexivity|].
  exact (proj1 (proj1 (write_response_is_read_of_written memory_services)
                  plain_request empty_world (VStr "hi") b appstruct b ann1
                  (backend after) eq_refl eq_refl eq_refl)).
Defined.

(** With the presenter down, [create] fails after the event for the
    stored annotation has been scheduled. *)
Lemma presentation_failure_keeps_event_witness :
  let svc := presenter_down memory_services in
  let b := backend empty_world in
  let appstruct : gmap string value := <["text" := VStr "hi"]> ∅ in
  let b3 : Store := {| stored := [ann1]; indexed := [] |} in
  svc (create_annotation appstruct) b = (Return ann1, b3)
  /\ svc (present_for_user ann1 (user plain_request)) b3 =
       (Raise (Error "PresenterError"), b3)
  /\ result (create svc plain_request empty_world) =
       Raise (Error "PresenterError")
  /\ scheduled (trace (create svc plain_request empty_world)) =
       [{| request := plain_request; annotation_id := "ann1";
           action := "create" |}]
  /\ backend (final (create svc plain_request empty_world)) = b3.
Proof.
  intros svc b appstruct b3.
  destruct (proj1 (presentation_failure_keeps_event svc)
              plain_request empty_world (VStr "hi") b appstruct b ann1 b3
              (Error "PresenterError") b3 eq_refl eq_refl eq_refl eq_refl)
    as (Hres & Hsched & Hfinal).
  split_and!; [reflexivity|reflexivity|exact Hres|exact Hsched|exact Hfinal].
Defined.

Lemma search_failures_stop_the_search_witness :
  let b := backend empty_world in
  (rejecting_schemas memory_services
     (validate_query_params (params query_plain)) b =
     (Raise (Error "ValidationError"), b)
   /\ trace (search (rejecting_schemas memory_services) query_plain
               empty_world) =
        [Invoked (validate_query_params (params query_plain)) false])
  /\
  (search_down memory_services
     (Search_run query_plain (VBool false) validated_plain) b =
     (Raise (Error "ConnectionError"), b)
   /\ presented_in_bulk (trace (search (search_down memory_services)
                                  query_plain empty_world)) = [])
  /\
  (replies_unpresentable memory_services
     (present_all_for_user ["a1"] (user query_separate)) b =
     (Return [VStr "a1"], b)
   /\ replies_unpresentable memory_services
        (present_all_for_user ["r1"] (user query_separate)) b =
        (Raise (Error "PresenterError"), b)
   /\ result (search (replies_unpresentable memory_services) query_separate
                empty_world) = Raise (Error "PresenterError")).
Proof.
  intros b.
  split_and!;
    [reflexivity| |reflexivity| |reflexivity|reflexivity|].
  - now rewrite (proj1 (search_failures_stop_the_search
                          (rejecting_schemas memory_services)
                          query_plain empty_world)
                   (Error "ValidationError") b eq_refl).
  - now rewrite (proj1 (proj2 (search_failures_stop_the_search
                                 (search_down memory_services)
                                 query_plain empty_world))
                   validated_plain b (Error "ConnectionError") b
                   eq_refl eq_refl).
  - exact (proj1 (proj2 (proj2 (search_failures_stop_the_search
                                  (replies_unpresentable memory_services)
                                  query_separate empty_world))
                    validated_separate b found_separate b [VStr "a1"] b
                    (Error "PresenterError") b
                    eq_refl eq_refl eq_refl eq_refl eq_refl)).
Defined.

Lemma search_response_keys_and_total_witness :
  let b := backend empty_world in
  result (search memory_services query_separate empty_world) =
    Return response_separate
  /\ dom response_separate =
       ({["total"; "rows"]} : gset string) ∪ {["replies"]}
  /\ response_separate !! "total" = Some (VInt 2)
  /\ dom response_plain = ({["total"; "rows"]} : gset string) ∪ ∅.
Proof.
  intros b.
  destruct (search_response_keys_and_total memory_services query_separate
              empty_world validated_separate b found_separate b
              response_separate eq_refl eq_refl eq_refl) as [Hdom Htotal].
  destruct (search_response_keys_and_total memory_services query_plain
              empty_world validated_plain b found_plain b
              response_plain eq_refl eq_refl eq_refl) as [Hdom' _].
  split_and!; [reflexivity|exact Hdom|exact Htotal|exact Hdom'].
Defined.

Lemma reindex_without_setting_is_key_error_witness :
  settings plain_request !! "h.dev" = None
  /\ reindex memory_services (context_of ann1) plain_request empty_world =
       {| result := Raise (KeyError "h.dev"); final := empty_world;
          trace := [] |}.
Proof.
  split; [reflexivity|].
  exact (reindex_without_setting_is_key_error memory_services
           (context_of ann1) plain_request empty_world eq_refl).
Defined.

Lemma delete_failure_is_not_acknowledged_witness :
  let svc := delete_down memory_services in
  svc (annotation_delete_service_delete ann1) (backend empty_world) =
    (Raise (Error "OperationalError"), backend empty_world)
  /\ result (annotations.delete svc (context_of ann1) plain_request
               empty_world) = Raise (Error "OperationalError").
Proof.
  intros svc. split; [reflexivity|].
  now rewrite (delete_failure_is_not_acknowledged svc (context_of ann1)
                 plain_request empty_world (Error "OperationalError")
                 (backend empty_world) eq_refl).
Defined.
